(** * convert-font.py: WOFF2 to TTF conversion script

    A shallow embedding of [convert-font.py] and the properties of its
    observable behaviour: exit status, standard output and file system.

    The script is twelve lines of Python:
<<
      woff2_path = sys.argv[1]
      ttf_path = sys.argv[2]

      font = TTFont(woff2_path)
      font.flavor = None  # Remove WOFF2 flavor
      font.save(ttf_path)
      print(f"Converted {woff2_path} to {ttf_path}")
>>
    Python statements are embedded in an exception-and-state monad over a
    world made of a file system and standard output.  The fontTools
    library is not part of the repository: its container codec is an
    interface ([SfntCodec]), and the two library calls the script makes
    are modelled on top of it. *)

From Stdlib Require Import Strings.Ascii Strings.Byte.
From stdpp Require Import gmap strings list.

(** ** Python runtime: exceptions, world, monad *)

(** The exceptions a run of the script can end with. *)
Inductive exn : Type :=
| IndexError                     (* list index out of range *)
| OSError (filename : string)    (* FileNotFoundError, PermissionError, ... *)
| TTLibError                     (* fontTools.ttLib.TTLibError: not a font *)
| UnicodeEncodeError.            (* text that the encoding of stdout lacks *)

#[global] Instance exn_eq_dec : EqDecision exn.
Proof. solve_decision. Defined.

(** File system.  A path is a text, and several texts may name one file
    ([a.woff2] and [./a.woff2], links): [realpath] gives the identity of
    the file a path names, [files] the content of the readable regular
    files by identity, and [writable] the paths at which a file can be
    opened for writing (parent directory present, permissions granted). *)
Record FileSystem : Type := {
  files : gmap string (list byte);
  realpath : string → string;
  writable : string → bool
}.

(** The content of the file a path names, if it names a readable file. *)
Definition read_file (fsys : FileSystem) (path : string) : option (list byte) :=
  files fsys !! realpath fsys path.

(** The file system after a write of [data] through [path]: the file the
    path names is created or replaced, every other file is as before. *)
Definition write_file (fsys : FileSystem) (path : string) (data : list byte)
  : FileSystem :=
  {| files := <[realpath fsys path := data]> (files fsys);
     realpath := realpath fsys;
     writable := writable fsys |}.

(** What standard output is connected to: the texts its encoding can
    represent, and whether the flush at interpreter exit goes through. *)
Record Sink : Type := {
  encodable : string → bool;
  flushes : bool
}.

(** A sink that takes every text, such as a UTF-8 terminal. *)
Definition terminal : Sink := {| encodable := λ _, true; flushes := true |}.

(** [stdout] is the text written to standard output so far. *)
Record World : Type := {
  fs : FileSystem;
  stdout : string;
  sink : Sink
}.

Definition Py (A : Type) : Type := World → (exn + A) * World.

Definition ret {A} (a : A) : Py A := λ w, (inr a, w).

Definition raise {A} (e : exn) : Py A := λ w, (inl e, w).

Definition bind {A B} (m : Py A) (k : A → Py B) : Py B :=
  λ w, match m w with
       | (inl e, w') => (inl e, w')
       | (inr a, w') => k a w'
       end.

Declare Scope py_scope.
Delimit Scope py_scope with py.
Notation "'let!' x ':=' m 'in' k" := (bind m (λ x, k))
  (at level 10, x name, m at level 100, k at level 200) : py_scope.
Notation "m '>>' k" := (bind m (λ _, k))
  (at level 100, k at level 200, right associativity) : py_scope.

(** [l[i]] for a non-negative literal index. *)
Definition getitem (l : list string) (i : nat) : Py string :=
  match l !! i with
  | Some x => ret x
  | None => raise IndexError
  end.

Definition LF : ascii := ascii_of_nat 10.

(** [print(s)]: the text, then a newline.  A text that the encoding of
    standard output cannot represent raises and writes nothing. *)
Definition print (s : string) : Py unit :=
  λ w, if encodable (sink w) s
       then (inr tt, {| fs := fs w;
                        stdout := stdout w +:+ s +:+ String LF "";
                        sink := sink w |})
       else (inl UnicodeEncodeError, w).

(** ** fontTools *)

(** [font.flavor] is ["woff"], ["woff2"] or [None]. *)
Inductive Flavor : Type := woff | woff2.

#[global] Instance Flavor_eq_dec : EqDecision Flavor.
Proof. solve_decision. Defined.

(** Modelled from the spec: the container codec of fontTools, which is not
    in the repository.  Reading a container yields its flavor and its
    tables, or nothing when the data is not a well-formed font; writing
    lays tables out in the container of a flavor.  Fidelity is delegated
    to the library: what is written reads back as the same tables with the
    same flavor. *)
Class SfntCodec : Type := {
  Tables : Type;
  read_sfnt : list byte → option (option Flavor * Tables);
  write_sfnt : option Flavor → Tables → list byte;
  read_write_sfnt : ∀ fl t, read_sfnt (write_sfnt fl t) = Some (fl, t)
}.

Section Script.
Context `{codec : SfntCodec}.

(** The font handle: opaque to the script except for [flavor]. *)
Record TTFont : Type := {
  flavor : option Flavor;
  tables : Tables
}.

(** [font.flavor = v] *)
Definition set_flavor (font : TTFont) (v : option Flavor) : TTFont :=
  {| flavor := v; tables := tables font |}.

(** Modelled from the spec: the constructor [TTFont(path)] of fontTools,
    which is not in the repository.  A source path that does not exist or
    is unreadable fails with an IO error, a file that is not a well-formed
    font fails with a parse error, otherwise the handle holds the tables
    and the flavor of the file.  The file system is only read. *)
Definition TTFont_init (path : string) : Py TTFont :=
  λ w, match read_file (fs w) path with
       | None => (inl (OSError path), w)
       | Some data =>
           match read_sfnt data with
           | None => (inl TTLibError, w)
           | Some (fl, t) => (inr {| flavor := fl; tables := t |}, w)
           end
       end.

(** Modelled from the spec: the method [TTFont.save(path)] of fontTools,
    which is not in the repository.  A destination that cannot be opened
    for writing fails with an IO error and nothing is written; otherwise
    the file that [path] names is created or silently overwritten with the
    font serialised in the container of its current flavor.  No other file
    is written.  [writable] stands for a save that goes through: a save
    that fails after the destination was opened is outside the model. *)
Definition TTFont_save (font : TTFont) (path : string) : Py unit :=
  λ w, if writable (fs w) path
       then (inr tt,
             {| fs := write_file (fs w) path
                        (write_sfnt (flavor font) (tables font));
                stdout := stdout w;
                sink := sink w |})
       else (inl (OSError path), w).

(** ** The script *)

(** The f-string [f"Converted {woff2_path} to {ttf_path}"]. *)
Definition message (woff2_path ttf_path : string) : string :=
  "Converted " +:+ woff2_path +:+ " to " +:+ ttf_path.

(** The module body, top to bottom. *)
Definition main (argv : list string) : Py unit :=
  (let! woff2_path := getitem argv 1 in
   let! ttf_path := getitem argv 2 in
   let! font := TTFont_init woff2_path in
   let font := set_flavor font None in
   TTFont_save font ttf_path >>
   print (message woff2_path ttf_path))%py.

(** ** The process *)

(** The world of a process started on a terminal: nothing on standard
    output yet. *)
Definition boot (fs0 : FileSystem) : World :=
  {| fs := fs0; stdout := ""; sink := terminal |}.

(** [python3 prog args...] on a terminal: [sys.argv] is the script name
    followed by the positional arguments. *)
Definition run (prog : string) (args : list string) (fs0 : FileSystem)
  : (exn + unit) * World :=
  main (prog :: args) (boot fs0).

(** The status the module body decides: 0 when it completes and 1 on an
    uncaught exception. *)
Definition exit_status {A} (r : exn + A) : nat :=
  match r with
  | inr _ => 0
  | inl _ => 1
  end.

(** The status the interpreter exits with: that of the module body, unless
    text is left to flush at exit and the flush fails, which gives 120. *)
Definition exit_code {A} (r : exn + A) (w : World) : nat :=
  if bool_decide (stdout w = "") || flushes (sink w)
  then exit_status r
  else 120.

(** The ways through the module body: the two subscripts, the load, the
    save, and the print, whose outcome is that of the run. *)
Inductive Outcome (argv : list string) (w : World)
  : (exn + unit) * World → Prop :=
| no_source :
    argv !! 1 = None →
    Outcome argv w (inl IndexError, w)
| no_destination woff2_path :
    argv !! 1 = Some woff2_path →
    argv !! 2 = None →
    Outcome argv w (inl IndexError, w)
| load_failed woff2_path ttf_path e w1 :
    argv !! 1 = Some woff2_path →
    argv !! 2 = Some ttf_path →
    TTFont_init woff2_path w = (inl e, w1) →
    Outcome argv w (inl e, w1)
| save_failed woff2_path ttf_path font e w1 w2 :
    argv !! 1 = Some woff2_path →
    argv !! 2 = Some ttf_path →
    TTFont_init woff2_path w = (inr font, w1) →
    TTFont_save (set_flavor font None) ttf_path w1 = (inl e, w2) →
    Outcome argv w (inl e, w2)
| converted woff2_path ttf_path font w1 w2 :
    argv !! 1 = Some woff2_path →
    argv !! 2 = Some ttf_path →
    TTFont_init woff2_path w = (inr font, w1) →
    TTFont_save (set_flavor font None) ttf_path w1 = (inr tt, w2) →
    Outcome argv w (print (message woff2_path ttf_path) w2).

End Script.

(** ** Lines of standard output *)

Definition is_LF (c : ascii) : bool := bool_decide (c = LF).

(** The lines of a text: maximal runs without a newline, each ended by a
    newline except possibly the last. *)
Fixpoint lines (s : string) : list string :=
  match s with
  | EmptyString => []
  | String c s' =>
      if is_LF c then EmptyString :: lines s'
      else match lines s' with
           | [] => [String c EmptyString]
           | l :: ls => String c l :: ls
           end
  end.

Fixpoint has_newline (s : string) : bool :=
  match s with
  | EmptyString => false
  | String c s' => is_LF c || has_newline s'
  end.

(** The number of newline characters of a text. *)
Fixpoint count_LF (s : string) : nat :=
  match s with
  | EmptyString => 0
  | String c s' => (if is_LF c then 1 else 0) + count_LF s'
  end.

(** ** A stored (uncompressed) codec

    An instance of the codec interface on which the script can be run on
    concrete file systems: a container is the four-byte signature of its
    flavor ([wOF2], [wOFF], or the TrueType version 1.0 tag) followed by
    the table data as it is. *)
Module Stored.

Definition signature (fl : option Flavor) : list byte :=
  match fl with
  | Some woff2 => [x77; x4f; x46; x32]
  | Some woff => [x77; x4f; x46; x46]
  | None => [x00; x01; x00; x00]
  end.

Definition read (data : list byte) : option (option Flavor * list byte) :=
  match data with
  | x77 :: x4f :: x46 :: x32 :: t => Some (Some woff2, t)
  | x77 :: x4f :: x46 :: x46 :: t => Some (Some woff, t)
  | x00 :: x01 :: x00 :: x00 :: t => Some (None, t)
  | _ => None
  end.

Definition write (fl : option Flavor) (t : list byte) : list byte :=
  signature fl ++ t.

Lemma read_write fl t : read (write fl t) = Some (fl, t).
Proof. by destruct fl as [[]|]. Qed.

#[export] Instance codec : SfntCodec := {|
  Tables := list byte;
  read_sfnt := read;
  write_sfnt := write;
  read_write_sfnt := read_write
|}.

(** Paths relative to the working directory, with any leading [./]
    removed. *)
Fixpoint strip_dot (p : string) : string :=
  match p with
  | String "." (String "/" rest) => strip_dot rest
  | _ => p
  end.

(** A directory with one WOFF2 font, one TrueType font and one text file;
    every path is writable except those under [/ro/]. *)
Definition glyphs : list byte := [x67; x6c; x79; x66].

Definition disk : FileSystem := {|
  files := {[ "a.woff2" := write (Some woff2) glyphs;
              "b.ttf" := write None glyphs;
              "notes.txt" := [x68; x69] ]};
  realpath := strip_dot;
  writable := λ p, negb (String.prefix "/ro/" p)
|}.

(** A destination path with a newline character in its name. *)
Definition two_line_path : string := "out" +:+ String LF ".ttf".

(** A destination path outside ASCII (e with acute accent in Latin-1). *)
Definition accented_path : string := String (ascii_of_nat 233) ".ttf".

(** Standard output with the ASCII encoding, and one that cannot be
    flushed, such as a full device. *)
Fixpoint ascii_only (s : string) : bool :=
  match s with
  | EmptyString => true
  | String c s' => bool_decide (nat_of_ascii c < 128) && ascii_only s'
  end.

Definition ascii_sink : Sink := {| encodable := ascii_only; flushes := true |}.

Definition full_device : Sink := {| encodable := λ _, true; flushes := false |}.

End Stored.

(** * Properties *)

(** ** Texts and lines *)

Lemma append_cons (x : ascii) (a b : string) :
  String x a +:+ b = String x (a +:+ b).
Proof. reflexivity. Qed.

Lemma append_assoc (a b c : string) : (a +:+ b) +:+ c = a +:+ b +:+ c.
Proof.
  induction a as [|x a IH]; [reflexivity|].
  by rewrite !append_cons, IH.
Qed.

Lemma append_line_nonempty (a b : string) : a +:+ b +:+ String LF "" ≠ "".
Proof. destruct a as [|x a]; [destruct b as [|y b]|]; discriminate. Qed.

Lemma has_newline_app (a b : string) :
  has_newline (a +:+ b) = has_newline a || has_newline b.
Proof.
  induction a as [|c a IH]; simpl; [done|].
  by rewrite IH, orb_assoc.
Qed.

Lemma lines_terminated (s : string) :
  has_newline s = false → lines (s +:+ String LF "") = [s].
Proof.
  induction s as [|c s IH]; simpl; [done|].
  intros [Hc Hs]%orb_false_elim.
  by rewrite Hc, (IH Hs).
Qed.

Lemma lines_newline_inside (a b : string) :
  has_newline a = false → has_newline b = false →
  lines (a +:+ String LF b +:+ String LF "") = [a; b].
Proof.
  intros Ha Hb. induction a as [|c a IH]; simpl in *.
  - by rewrite (lines_terminated b Hb).
  - apply orb_false_elim in Ha as [Hc Ha].
    by rewrite Hc, (IH Ha).
Qed.

Lemma count_LF_app (a b : string) :
  count_LF (a +:+ b) = count_LF a + count_LF b.
Proof.
  induction a as [|c a IH]; [reflexivity|].
  rewrite append_cons. simpl. rewrite IH. lia.
Qed.

Lemma lines_terminated_length (s : string) :
  length (lines (s +:+ String LF "")) = S (count_LF s).
Proof.
  induction s as [|c s IH]; [reflexivity|].
  rewrite append_cons. simpl. destruct (is_LF c); simpl.
  - by rewrite IH.
  - destruct (lines (s +:+ String LF "")); simpl in *; congruence.
Qed.

(** ** Files *)

Lemma read_write_file fsys path data p :
  realpath fsys p = realpath fsys path →
  read_file (write_file fsys path data) p = Some data.
Proof. unfold read_file, write_file. simpl. intros ->. apply lookup_insert_eq. Qed.

Lemma read_write_file_ne fsys path data p :
  realpath fsys p ≠ realpath fsys path →
  read_file (write_file fsys path data) p = read_file fsys p.
Proof.
  unfold read_file, write_file. simpl. intros Hp. by rewrite lookup_insert_ne.
Qed.

Lemma write_write_file fsys path old data :
  write_file (write_file fsys path old) path data = write_file fsys path data.
Proof. unfold write_file. simpl. by rewrite insert_insert_eq. Qed.

Section Properties.
Context `{codec : SfntCodec}.

(** ** The library calls *)

Lemma TTFont_init_world path w r w' :
  TTFont_init path w = (r, w') → w' = w.
Proof.
  unfold TTFont_init. intros H.
  destruct (read_file (fs w) path) as [data|]; [|congruence].
  destruct (read_sfnt data) as [[fl t]|]; congruence.
Qed.

Lemma TTFont_init_ok path w font :
  TTFont_init path w = (inr font, w) ↔
  ∃ data, read_file (fs w) path = Some data ∧
          read_sfnt data = Some (flavor font, tables font).
Proof.
  unfold TTFont_init. split.
  - destruct (read_file (fs w) path) as [data|]; [|discriminate].
    intros H. exists data. split; [done|].
    destruct (read_sfnt data) as [[fl t]|]; [|discriminate].
    by injection H as <-.
  - intros (data & -> & ->). by destruct font.
Qed.

Lemma TTFont_init_raises path w e w' :
  TTFont_init path w = (inl e, w') → e = OSError path ∨ e = TTLibError.
Proof.
  unfold TTFont_init.
  destruct (read_file (fs w) path) as [data|]; [|intros [= <- _]; by left].
  destruct (read_sfnt data) as [[fl t]|]; [discriminate|].
  intros [= <- _]. by right.
Qed.

Lemma TTFont_save_raises font path w e w' :
  TTFont_save font path w = (inl e, w') → e = OSError path ∧ w' = w.
Proof.
  unfold TTFont_save. destruct (writable (fs w) path); [discriminate|].
  by intros [= <- <-].
Qed.

Lemma TTFont_save_ok font path w w' :
  TTFont_save font path w = (inr tt, w') →
  writable (fs w) path = true ∧
  stdout w' = stdout w ∧
  sink w' = sink w ∧
  fs w' = write_file (fs w) path (write_sfnt (flavor font) (tables font)).
Proof.
  unfold TTFont_save. destruct (writable (fs w) path); [|discriminate].
  by intros [= <-].
Qed.

(** A save changes no file but the one its path names. *)
Lemma TTFont_save_frame font path w r w' p :
  TTFont_save font path w = (r, w') →
  realpath (fs w) p ≠ realpath (fs w) path →
  read_file (fs w') p = read_file (fs w) p.
Proof.
  unfold TTFont_save.
  destruct (writable (fs w) path); intros [= _ <-] Hp; [|done].
  by apply read_write_file_ne.
Qed.

Lemma print_fs s w : fs (snd (print s w)) = fs w.
Proof. unfold print. by destruct (encodable (sink w) s). Qed.

(** ** The module body *)

Lemma main_outcome argv w : Outcome argv w (main argv w).
Proof.
  unfold main, bind, getitem.
  destruct (argv !! 1) as [s|] eqn:Hs; [|by constructor].
  simpl. destruct (argv !! 2) as [d|] eqn:Hd; [|by econstructor].
  simpl. destruct (TTFont_init s w) as [[e|font] w1] eqn:Hload.
  { by eapply load_failed. }
  destruct (TTFont_save (set_flavor font None) d w1) as [[e|[]] w2] eqn:Hsave.
  - by eapply save_failed.
  - by eapply converted.
Qed.

Lemma main_unfold prog args w :
  main (prog :: args) w =
  match args !! 0 with
  | None => (inl IndexError, w)
  | Some woff2_path =>
      match args !! 1 with
      | None => (inl IndexError, w)
      | Some ttf_path =>
          match TTFont_init woff2_path w with
          | (inl e, w1) => (inl e, w1)
          | (inr font, w1) =>
              match TTFont_save (set_flavor font None) ttf_path w1 with
              | (inl e, w2) => (inl e, w2)
              | (inr _, w2) => print (message woff2_path ttf_path) w2
              end
          end
      end
  end.
Proof.
  unfold main, bind, getitem. simpl.
  destruct (args !! 0); [|done]. by destruct (args !! 1).
Qed.

Lemma run_unfold prog args fs0 :
  run prog args fs0 =
  match args !! 0 with
  | None => (inl IndexError, boot fs0)
  | Some woff2_path =>
      match args !! 1 with
      | None => (inl IndexError, boot fs0)
      | Some ttf_path =>
          match TTFont_init woff2_path (boot fs0) with
          | (inl e, w1) => (inl e, w1)
          | (inr font, w1) =>
              match TTFont_save (set_flavor font None) ttf_path w1 with
              | (inl e, w2) => (inl e, w2)
              | (inr _, w2) => print (message woff2_path ttf_path) w2
              end
          end
      end
  end.
Proof. apply main_unfold. Qed.

Lemma main_success argv w w' :
  main argv w = (inr tt, w') →
  ∃ woff2_path ttf_path font w2,
    argv !! 1 = Some woff2_path ∧ argv !! 2 = Some ttf_path ∧
    TTFont_init woff2_path w = (inr font, w) ∧
    TTFont_save (set_flavor font None) ttf_path w = (inr tt, w2) ∧
    encodable (sink w) (message woff2_path ttf_path) = true ∧
    w' = {| fs := fs w2;
            stdout := stdout w2 +:+ message woff2_path ttf_path +:+ String LF "";
            sink := sink w2 |}.
Proof.
  intros Hrun. pose proof (main_outcome argv w) as Ho. rewrite Hrun in Ho.
  inversion Ho as [| | | |s d font w1 w2 Hs Hd Hload Hsave Hprint].
  pose proof (TTFont_init_world _ _ _ _ Hload) as ->.
  exists s, d, font, w2. unfold print in Hprint.
  destruct (encodable (sink w2) (message s d)) eqn:Henc; [|discriminate].
  pose proof (TTFont_save_ok _ _ _ _ Hsave) as (_ & _ & Hsink & _).
  rewrite Hsink in Henc. by injection Hprint as <-.
Qed.

(** A failed run has printed nothing. *)
Lemma main_failure argv w e w' :
  main argv w = (inl e, w') → stdout w' = stdout w.
Proof.
  intros Hrun. pose proof (main_outcome argv w) as Ho. rewrite Hrun in Ho.
  inversion Ho as [| |s d e' w1 _ _ Hload|s d font e' w1 w2 _ _ Hload Hsave
                   |s d font w1 w2 _ _ Hload Hsave Hprint];
    subst; try done.
  - by apply TTFont_init_world in Hload as ->.
  - apply TTFont_init_world in Hload as ->.
    by apply TTFont_save_raises in Hsave as [_ ->].
  - apply TTFont_init_world in Hload as ->.
    apply TTFont_save_ok in Hsave as (_ & Hout & _).
    unfold print in Hprint.
    destruct (encodable (sink w2) (message s d)); [discriminate|].
    by injection Hprint as _ <-.
Qed.

(** A run on a terminal whose source holds a font and whose destination
    can be opened completes: the destination holds the tables of the
    source in the flavor-less container and the message is on standard
    output. *)
Lemma run_converts prog woff2_path ttf_path rest fs0 data fl t :
  read_file fs0 woff2_path = Some data →
  read_sfnt data = Some (fl, t) →
  writable fs0 ttf_path = true →
  run prog (woff2_path :: ttf_path :: rest) fs0 =
    (inr tt,
     {| fs := write_file fs0 ttf_path (write_sfnt None t);
        stdout := message woff2_path ttf_path +:+ String LF "";
        sink := terminal |}).
Proof.
  intros Hfile Hread Hw.
  unfold run, main, bind, getitem, TTFont_init, TTFont_save, print; simpl.
  rewrite Hfile, Hread; simpl. by rewrite Hw.
Qed.

Lemma run_succeeds_inv prog woff2_path ttf_path rest fs0 :
  fst (run prog (woff2_path :: ttf_path :: rest) fs0) = inr tt →
  (∃ data fl t, read_file fs0 woff2_path = Some data ∧
                read_sfnt data = Some (fl, t)) ∧
  writable fs0 ttf_path = true.
Proof.
  destruct (run prog (woff2_path :: ttf_path :: rest) fs0) as [r w'] eqn:Hrun.
  simpl. intros ->.
  apply main_success in Hrun
    as (s & d & font & w2 & [= <-] & [= <-] & Hload & Hsave & _).
  apply TTFont_init_ok in Hload as (data & Hfile & Hread).
  apply TTFont_save_ok in Hsave as (Hw & _).
  split; [|done]. by exists data, (flavor font), (tables font).
Qed.

(** On a terminal the interpreter exits with the status of the module
    body. *)
Lemma exit_code_run prog args fs0 :
  exit_code (fst (run prog args fs0)) (snd (run prog args fs0))
    = exit_status (fst (run prog args fs0)).
Proof.
  unfold exit_code.
  assert (flushes (sink (snd (run prog args fs0))) = true) as ->;
    [|by rewrite orb_true_r].
  unfold run.
  destruct (main_outcome (prog :: args) (boot fs0))
    as [| |s d e w1 _ _ Hload|s d font e w1 w2 _ _ Hload Hsave
        |s d font w1 w2 _ _ Hload Hsave]; simpl; try done.
  - by apply TTFont_init_world in Hload as ->.
  - apply TTFont_init_world in Hload as ->.
    by apply TTFont_save_raises in Hsave as [_ ->].
  - apply TTFont_init_world in Hload as ->.
    apply TTFont_save_ok in Hsave as (_ & _ & Hsink & _).
    unfold print. by destruct (encodable _ _); simpl; rewrite Hsink.
Qed.

(** ** Claims on a single run *)

(** C1 (flavor invariant).  On every successful run the handle given to
    [save] has its flavor unset, whatever flavor the source file had: the
    bytes written to the destination are the tables of the loaded font in
    the flavor-less container, and they read back with flavor [None]. *)
Theorem flavor_none_at_write prog args fs0 w' :
  run prog args fs0 = (inr tt, w') →
  ∃ woff2_path ttf_path font w1,
    args !! 0 = Some woff2_path ∧ args !! 1 = Some ttf_path ∧
    TTFont_init woff2_path (boot fs0) = (inr font, boot fs0) ∧
    flavor (set_flavor font None) = None ∧
    TTFont_save (set_flavor font None) ttf_path (boot fs0) = (inr tt, w1) ∧
    fs w' = fs w1 ∧
    read_file (fs w') ttf_path = Some (write_sfnt None (tables font)) ∧
    read_sfnt (write_sfnt None (tables font)) = Some (None, tables font).
Proof.
  intros (s & d & font & w1 & Hs & Hd & Hload & Hsave & _ & ->)%main_success.
  exists s, d, font, w1. repeat split; try done.
  - apply TTFont_save_ok in Hsave as (_ & _ & _ & Hfs). simpl in *.
    rewrite Hfs. by apply read_write_file.
  - apply read_write_sfnt.
Qed.

(** C2 (success message), amended.  On every successful run with source
    path [s] and destination path [d], standard output is exactly the text
    [Converted s to d] followed by one newline, and nothing else; this is
    exactly one line whenever neither path contains a newline character. *)
Theorem success_message prog woff2_path ttf_path rest fs0 w' :
  run prog (woff2_path :: ttf_path :: rest) fs0 = (inr tt, w') →
  stdout w' = "Converted " +:+ woff2_path +:+ " to " +:+ ttf_path +:+ String LF "" ∧
  (has_newline woff2_path = false → has_newline ttf_path = false →
   lines (stdout w') = ["Converted " +:+ woff2_path +:+ " to " +:+ ttf_path]).
Proof.
  intros (s & d & font & w1 & [= <-] & [= <-] & _ & Hsave & _ & ->)%main_success.
  apply TTFont_save_ok in Hsave as (_ & Hout & _). simpl in *.
  rewrite Hout. change ("" +:+ ?x) with x. split.
  - unfold message. by rewrite !append_assoc.
  - intros Hs Hd. apply (lines_terminated (message woff2_path ttf_path)).
    unfold message. rewrite !has_newline_app, Hs, Hd. reflexivity.
Qed.

(** C3 (argument validation).  With no or one positional argument the
    script fails with [IndexError], exits with a non-zero status, and
    leaves the file system as it was: no file is created or modified. *)
Theorem too_few_arguments prog args fs0 :
  length args < 2 →
  fst (run prog args fs0) = inl IndexError ∧
  exit_status (fst (run prog args fs0)) ≠ 0 ∧
  fs (snd (run prog args fs0)) = fs0.
Proof.
  intros Hlen. destruct args as [|s [|d rest]]; simpl in Hlen; [| |lia];
    by cbv.
Qed.

(** C4 (extra arguments), amended.  Positional arguments after the second
    are never read: an invocation with extra arguments behaves exactly as
    the invocation with its first two arguments, and never fails with an
    argument/index error. *)
Theorem extra_arguments_ignored prog woff2_path ttf_path extra fs0 :
  run prog (woff2_path :: ttf_path :: extra) fs0 =
    run prog [woff2_path; ttf_path] fs0 ∧
  fst (run prog (woff2_path :: ttf_path :: extra) fs0) ≠ inl IndexError.
Proof.
  split; [reflexivity|].
  unfold run. intros Hfail.
  pose proof (main_outcome (prog :: woff2_path :: ttf_path :: extra) (boot fs0))
    as Ho.
  destruct (main _ _) as [r w'] eqn:Hrun; simpl in Hfail; subst r.
  inversion Ho as [| |s d e w1 _ _ Hload|s d font e w1 w2 _ _ _ Hsave
                   |s d font w1 w2 _ _ _ _ Hprint];
    subst; try discriminate.
  - by apply TTFont_init_raises in Hload as [|].
  - by apply TTFont_save_raises in Hsave as [? _].
  - unfold print in Hprint. by destruct (encodable _ _).
Qed.

(** C5 (missing source).  When the source path names no readable file, the
    script fails with an IO error on that path, exits with a non-zero
    status, and the file system is as before: no destination is created. *)
Theorem missing_source prog woff2_path ttf_path rest fs0 :
  read_file fs0 woff2_path = None →
  fst (run prog (woff2_path :: ttf_path :: rest) fs0) = inl (OSError woff2_path) ∧
  exit_status (fst (run prog (woff2_path :: ttf_path :: rest) fs0)) ≠ 0 ∧
  fs (snd (run prog (woff2_path :: ttf_path :: rest) fs0)) = fs0 ∧
  (read_file fs0 ttf_path = None →
   read_file (fs (snd (run prog (woff2_path :: ttf_path :: rest) fs0))) ttf_path
     = None).
Proof.
  intros Hmissing.
  assert (run prog (woff2_path :: ttf_path :: rest) fs0
          = (inl (OSError woff2_path), boot fs0)) as ->.
  { unfold run, main, bind, getitem, TTFont_init; simpl. by rewrite Hmissing. }
  by simpl.
Qed.

(** C6 (propagation, exit status).  No error is handled by the script: an
    error raised by either subscript of [sys.argv], by the load or by the
    save is the error the process ends with; the process exits with a
    non-zero status on any error; and it exits with status 0 exactly when
    the run completes: both subscripts are in range, the load and the save
    succeed, the message can be printed and standard output is flushed. *)
Theorem errors_propagate prog args w :
  (∀ e, fst (getitem (prog :: args) 1 w) = inl e →
        fst (main (prog :: args) w) = inl e) ∧
  (∀ woff2_path e,
      args !! 0 = Some woff2_path →
      fst (getitem (prog :: args) 2 w) = inl e →
      fst (main (prog :: args) w) = inl e) ∧
  (∀ woff2_path ttf_path e,
      args !! 0 = Some woff2_path → args !! 1 = Some ttf_path →
      fst (TTFont_init woff2_path w) = inl e →
      fst (main (prog :: args) w) = inl e) ∧
  (∀ woff2_path ttf_path font e,
      args !! 0 = Some woff2_path → args !! 1 = Some ttf_path →
      TTFont_init woff2_path w = (inr font, w) →
      fst (TTFont_save (set_flavor font None) ttf_path w) = inl e →
      fst (main (prog :: args) w) = inl e) ∧
  (∀ e, fst (main (prog :: args) w) = inl e →
        exit_code (fst (main (prog :: args) w)) (snd (main (prog :: args) w))
          ≠ 0) ∧
  (exit_code (fst (main (prog :: args) w)) (snd (main (prog :: args) w)) = 0 ↔
   ∃ woff2_path ttf_path font w2,
     args !! 0 = Some woff2_path ∧ args !! 1 = Some ttf_path ∧
     TTFont_init woff2_path w = (inr font, w) ∧
     TTFont_save (set_flavor font None) ttf_path w = (inr tt, w2) ∧
     encodable (sink w) (message woff2_path ttf_path) = true ∧
     flushes (sink w) = true).
Proof.
  split_and!.
  - intros e. rewrite main_unfold. unfold getitem, ret, raise; simpl.
    destruct (args !! 0); simpl; [discriminate|by intros [= <-]].
  - intros s e Hs. rewrite main_unfold, Hs. unfold getitem, ret, raise; simpl.
    destruct (args !! 1); simpl; [discriminate|by intros [= <-]].
  - intros s d e Hs Hd. rewrite main_unfold, Hs, Hd.
    destruct (TTFont_init s w) as [[e0|font] w1]; simpl;
      [by intros [= <-]|discriminate].
  - intros s d font e Hs Hd Hload. rewrite main_unfold, Hs, Hd, Hload.
    destruct (TTFont_save _ d w) as [[e1|[]] w2]; simpl;
      [done|discriminate].
  - intros e He. unfold exit_code. rewrite He. simpl.
    by destruct (_ || _).
  - split.
    + unfold exit_code.
      destruct (main (prog :: args) w) as [[e|[]] w'] eqn:Hrun; simpl.
      { by destruct (_ || _). }
      apply main_success in Hrun
        as (s & d & font & w2 & Hs & Hd & Hload & Hsave & Henc & ->).
      simpl in *.
      rewrite bool_decide_eq_false_2 by apply append_line_nonempty. simpl.
      destruct (flushes (sink w2)) eqn:Hflush; [intros _|discriminate].
      apply TTFont_save_ok in Hsave as Hok. destruct Hok as (_ & _ & Hsink & _).
      rewrite Hsink in Hflush. by exists s, d, font, w2.
    + intros (s & d & font & w2 & Hs & Hd & Hload & Hsave & Henc & Hflush).
      rewrite main_unfold, Hs, Hd, Hload, Hsave.
      apply TTFont_save_ok in Hsave as (_ & _ & Hsink & _).
      rewrite <- Hsink in Henc, Hflush.
      unfold print, exit_code. rewrite Henc. simpl.
      by rewrite Hflush, orb_true_r.
Qed.

(** ** Claims relating source and destination *)

(** C7 (idempotence on re-conversion).  Converting a font whose flavor is
    already none succeeds whenever the destination can be written; the
    output reads back as the very font the source holds, with flavor still
    none; and when the source is itself in the form the library writes (an
    already converted font), the output is byte for byte the source. *)
Theorem reconversion_idempotent prog woff2_path ttf_path fs0 data t :
  read_file fs0 woff2_path = Some data →
  read_sfnt data = Some (None, t) →
  writable fs0 ttf_path = true →
  ∃ w' out,
    run prog [woff2_path; ttf_path] fs0 = (inr tt, w') ∧
    read_file (fs w') ttf_path = Some out ∧
    read_sfnt out = read_sfnt data ∧
    read_sfnt out = Some (None, t) ∧
    (data = write_sfnt None t → out = data).
Proof.
  intros Hfile Hread Hw.
  eexists _, (write_sfnt None t).
  split; [by eapply run_converts|]. simpl.
  rewrite read_write_file, Hread, read_write_sfnt by done.
  repeat split; congruence.
Qed.

(** C8 (round-trip content preservation).  For a well-formed WOFF2 source
    and a writable destination the run succeeds, and the tables read from
    the destination are the tables read from the source; the two files
    differ in flavor only, WOFF2 against none. *)
Theorem content_preserved prog woff2_path ttf_path fs0 data t :
  read_file fs0 woff2_path = Some data →
  read_sfnt data = Some (Some woff2, t) →
  writable fs0 ttf_path = true →
  ∃ w' out,
    run prog [woff2_path; ttf_path] fs0 = (inr tt, w') ∧
    read_file (fs w') ttf_path = Some out ∧
    read_sfnt out = Some (None, t) ∧
    snd <$> read_sfnt out = snd <$> read_sfnt data.
Proof.
  intros Hfile Hread Hw.
  exists (snd (run prog [woff2_path; ttf_path] fs0)), (write_sfnt None t).
  rewrite (run_converts _ _ _ _ _ _ _ _ Hfile Hread Hw). simpl.
  rewrite read_write_file, Hread, read_write_sfnt by done. done.
Qed.

(** C9 (frame), amended.  In every run, successful or failed, no file
    other than the one the destination path names is written: the content
    of every other file is as before, in particular that of the source
    whenever the source path and the destination path do not name the same
    file. *)
Theorem other_paths_untouched prog args fs0 p :
  realpath fs0 <$> args !! 1 ≠ Some (realpath fs0 p) →
  read_file (fs (snd (run prog args fs0))) p = read_file fs0 p.
Proof.
  intros Hp. unfold run.
  destruct (main_outcome (prog :: args) (boot fs0))
    as [| |s d e w1 _ _ Hload|s d font e w1 w2 _ _ Hload Hsave
        |s d font w1 w2 _ Hd Hload Hsave]; simpl; try done.
  - by apply TTFont_init_world in Hload as ->.
  - apply TTFont_init_world in Hload as ->.
    by apply TTFont_save_raises in Hsave as [_ ->].
  - apply TTFont_init_world in Hload as ->.
    rewrite print_fs, (TTFont_save_frame _ _ _ _ _ p Hsave); [done|].
    simpl in *. intros Heq. apply Hp. rewrite Hd. simpl. by rewrite Heq.
Qed.

(** C10 (message after save).  On every failed run, whether a subscript,
    the load or the save failed, standard output is empty; whenever
    something was printed, the destination already holds the saved font. *)
Theorem nothing_printed_on_failure prog args fs0 :
  (∀ e, fst (run prog args fs0) = inl e →
        stdout (snd (run prog args fs0)) = "") ∧
  (stdout (snd (run prog args fs0)) ≠ "" →
   ∃ woff2_path ttf_path font,
     args !! 0 = Some woff2_path ∧ args !! 1 = Some ttf_path ∧
     TTFont_init woff2_path (boot fs0) = (inr font, boot fs0) ∧
     read_file (fs (snd (run prog args fs0))) ttf_path
       = Some (write_sfnt None (tables font))).
Proof.
  unfold run. destruct (main (prog :: args) (boot fs0)) as [[e|[]] w'] eqn:Hrun;
    simpl.
  - apply main_failure in Hrun as ->. by split.
  - split; [discriminate|]. intros _.
    apply main_success in Hrun
      as (s & d & font & w2 & Hs & Hd & Hload & Hsave & _ & ->).
    exists s, d, font. repeat split; try done. simpl.
    apply TTFont_save_ok in Hsave as (_ & _ & _ & ->). by apply read_write_file.
Qed.

End Properties.

(** * Further properties of the script *)

Section Further.
Context `{codec : SfntCodec}.

(** X1 (arguments read).  The script reads [sys.argv[1]] and [sys.argv[2]]
    and nothing else of its command line: two invocations that agree on
    their first two positional arguments (present or absent) have the same
    outcome, standard output and file system, whatever the script name and
    whatever follows. *)
Theorem only_two_arguments_read prog prog' args args' fs0 :
  args !! 0 = args' !! 0 →
  args !! 1 = args' !! 1 →
  run prog args fs0 = run prog' args' fs0.
Proof. intros H0 H1. by rewrite !run_unfold, H0, H1. Qed.

(** X2 (malformed source).  The load comes before the save: when the
    source file is not a well-formed font the run ends with the parse
    error, and nothing has been saved or printed, whether or not the
    destination could have been written. *)
Theorem malformed_source prog woff2_path ttf_path rest fs0 data :
  read_file fs0 woff2_path = Some data →
  read_sfnt data = None →
  run prog (woff2_path :: ttf_path :: rest) fs0 = (inl TTLibError, boot fs0) ∧
  exit_status (fst (run prog (woff2_path :: ttf_path :: rest) fs0)) = 1.
Proof.
  intros Hfile Hread. rewrite run_unfold. simpl.
  unfold TTFont_init. simpl. by rewrite Hfile, Hread.
Qed.

(** X3 (unwritable destination).  When the source holds a font but the
    destination cannot be opened for writing, the run ends with the IO
    error of the destination path; nothing is printed and no file has
    changed. *)
Theorem unwritable_destination prog woff2_path ttf_path rest fs0 data fl t :
  read_file fs0 woff2_path = Some data →
  read_sfnt data = Some (fl, t) →
  writable fs0 ttf_path = false →
  run prog (woff2_path :: ttf_path :: rest) fs0
    = (inl (OSError ttf_path), boot fs0) ∧
  exit_status (fst (run prog (woff2_path :: ttf_path :: rest) fs0)) = 1.
Proof.
  intros Hfile Hread Hw. rewrite run_unfold. simpl.
  unfold TTFont_init, TTFont_save. simpl. rewrite Hfile, Hread. simpl.
  by rewrite Hw.
Qed.

(** X5 (lines of the message).  On every successful run the number of
    lines on standard output is one more than the number of newline
    characters in the two paths, which are printed as they are. *)
Theorem stdout_line_count prog woff2_path ttf_path rest fs0 w' :
  run prog (woff2_path :: ttf_path :: rest) fs0 = (inr tt, w') →
  length (lines (stdout w')) = S (count_LF woff2_path + count_LF ttf_path).
Proof.
  intros (s & d & font & w1 & [= <-] & [= <-] & _ & Hsave & _ & ->)%main_success.
  apply TTFont_save_ok in Hsave as (_ & Hout & _). simpl in *.
  rewrite Hout. change ("" +:+ ?x) with x.
  rewrite lines_terminated_length. unfold message.
  rewrite !count_LF_app. reflexivity.
Qed.


(** X8 (silent overwrite).  The save does not look at what the destination
    held: when source and destination do not name the same file, a run
    whose destination already exists ends with the same files as the run
    on the file system without that destination. *)
Theorem overwrites_destination prog woff2_path ttf_path fs0 old :
  realpath fs0 woff2_path ≠ realpath fs0 ttf_path →
  fst (run prog [woff2_path; ttf_path] fs0) = inr tt →
  fst (run prog [woff2_path; ttf_path] (write_file fs0 ttf_path old)) = inr tt ∧
  fs (snd (run prog [woff2_path; ttf_path] (write_file fs0 ttf_path old)))
    = fs (snd (run prog [woff2_path; ttf_path] fs0)).
Proof.
  intros Hne [(data & fl & t & Hfile & Hread) Hw]%run_succeeds_inv.
  rewrite (run_converts _ _ _ _ _ _ _ _ Hfile Hread Hw).
  erewrite run_converts; [|by rewrite read_write_file_ne|done|done].
  simpl. split; [done|]. apply write_write_file.
Qed.

End Further.

(** * Runs on a concrete file system *)

Import Stored.

Lemma flavor_none_at_write_witness :
  run "convert-font.py" ["a.woff2"; "out.ttf"] disk
    = (inr tt, snd (run "convert-font.py" ["a.woff2"; "out.ttf"] disk)) ∧
  ∃ woff2_path ttf_path font w1,
    ["a.woff2"; "out.ttf"] !! 0 = Some woff2_path ∧
    ["a.woff2"; "out.ttf"] !! 1 = Some ttf_path ∧
    TTFont_init woff2_path (boot disk) = (inr font, boot disk) ∧
    flavor (set_flavor font None) = None ∧
    TTFont_save (set_flavor font None) ttf_path (boot disk) = (inr tt, w1) ∧
    fs (snd (run "convert-font.py" ["a.woff2"; "out.ttf"] disk)) = fs w1 ∧
    read_file (fs (snd (run "convert-font.py" ["a.woff2"; "out.ttf"] disk)))
      ttf_path = Some (write_sfnt None (tables font)) ∧
    read_sfnt (write_sfnt None (tables font)) = Some (None, tables font).
Proof.
  split; [reflexivity|].
  apply (flavor_none_at_write "convert-font.py" ["a.woff2"; "out.ttf"] disk).
  reflexivity.
Defined.

Lemma success_message_witness :
  run "convert-font.py" ["a.woff2"; "out.ttf"] disk
    = (inr tt, snd (run "convert-font.py" ["a.woff2"; "out.ttf"] disk)) ∧
  has_newline "a.woff2" = false ∧ has_newline "out.ttf" = false ∧
  stdout (snd (run "convert-font.py" ["a.woff2"; "out.ttf"] disk))
    = "Converted " +:+ "a.woff2" +:+ " to " +:+ "out.ttf" +:+ String LF "" ∧
  lines (stdout (snd (run "convert-font.py" ["a.woff2"; "out.ttf"] disk)))
    = ["Converted " +:+ "a.woff2" +:+ " to " +:+ "out.ttf"].
Proof.
  split_and!; [reflexivity..| |].
  - apply (success_message "convert-font.py" "a.woff2" "out.ttf" [] disk).
    reflexivity.
  - apply (success_message "convert-font.py" "a.woff2" "out.ttf" [] disk);
      reflexivity.
Defined.

(** The claim C2 read on a destination path of two lines: the run succeeds
    and standard output holds two lines, not the one line of the claim. *)
Lemma success_message_two_lines :
  fst (run "convert-font.py" ["a.woff2"; two_line_path] disk) = inr tt ∧
  lines (stdout (snd (run "convert-font.py" ["a.woff2"; two_line_path] disk)))
    = ["Converted a.woff2 to out"; ".ttf"] ∧
  lines (stdout (snd (run "convert-font.py" ["a.woff2"; two_line_path] disk)))
    ≠ ["Converted " +:+ "a.woff2" +:+ " to " +:+ two_line_path].
Proof. split_and!; [reflexivity|reflexivity|discriminate]. Qed.

Lemma too_few_arguments_witness :
  length ["a.woff2"] < 2 ∧
  fst (run "convert-font.py" ["a.woff2"] disk) = inl IndexError ∧
  exit_status (fst (run "convert-font.py" ["a.woff2"] disk)) ≠ 0 ∧
  fs (snd (run "convert-font.py" ["a.woff2"] disk)) = disk.
Proof.
  split; [simpl; lia|].
  apply (too_few_arguments "convert-font.py" ["a.woff2"] disk). simpl; lia.
Defined.

(** The claim C4 read on three arguments: the run succeeds with status 0
    instead of failing with an argument/index error. *)
Lemma extra_argument_accepted :
  fst (run "convert-font.py" ["a.woff2"; "out.ttf"; "extra"] disk) = inr tt ∧
  exit_status (fst (run "convert-font.py" ["a.woff2"; "out.ttf"; "extra"] disk))
    = 0.
Proof. split; reflexivity. Qed.

Lemma missing_source_witness :
  read_file disk "missing.woff2" = None ∧
  fst (run "convert-font.py" ["missing.woff2"; "out.ttf"] disk)
    = inl (OSError "missing.woff2") ∧
  exit_status (fst (run "convert-font.py" ["missing.woff2"; "out.ttf"] disk)) ≠ 0 ∧
  fs (snd (run "convert-font.py" ["missing.woff2"; "out.ttf"] disk)) = disk ∧
  (read_file disk "out.ttf" = None →
   read_file (fs (snd (run "convert-font.py" ["missing.woff2"; "out.ttf"] disk)))
     "out.ttf" = None).
Proof.
  split; [reflexivity|].
  apply (missing_source "convert-font.py" "missing.woff2" "out.ttf" [] disk).
  reflexivity.
Defined.

(** A run that completes on a terminal exits with status 0. *)
Lemma errors_propagate_witness :
  exit_code
    (fst (main ["convert-font.py"; "a.woff2"; "out.ttf"] (boot disk)))
    (snd (main ["convert-font.py"; "a.woff2"; "out.ttf"] (boot disk))) = 0.
Proof.
  apply (errors_propagate (codec:=codec) "convert-font.py"
           ["a.woff2"; "out.ttf"] (boot disk)).
  exists "a.woff2", "out.ttf",
    (@Build_TTFont codec (Some woff2) glyphs).
  eexists. by split_and!.
Defined.

(** Standard output with the ASCII encoding and a destination path outside
    it: the font is saved, then the print raises; the status is 1 and
    nothing is printed. *)
Example print_refused :
  main ["convert-font.py"; "a.woff2"; accented_path]
    {| fs := disk; stdout := ""; sink := ascii_sink |}
    = (inl UnicodeEncodeError,
       {| fs := write_file disk accented_path (write None glyphs);
          stdout := ""; sink := ascii_sink |}).
Proof. reflexivity. Qed.

(** Standard output that cannot be flushed: the module body completes and
    the interpreter exits with status 120. *)
Example flush_refused :
  fst (main ["convert-font.py"; "a.woff2"; "out.ttf"]
         {| fs := disk; stdout := ""; sink := full_device |}) = inr tt ∧
  exit_code
    (fst (main ["convert-font.py"; "a.woff2"; "out.ttf"]
            {| fs := disk; stdout := ""; sink := full_device |}))
    (snd (main ["convert-font.py"; "a.woff2"; "out.ttf"]
            {| fs := disk; stdout := ""; sink := full_device |})) = 120.
Proof. split; reflexivity. Qed.

Lemma reconversion_idempotent_witness :
  read_file disk "b.ttf" = Some (write None glyphs) ∧
  read_sfnt (write None glyphs) = Some (None, glyphs) ∧
  writable disk "c.ttf" = true ∧
  ∃ w' out,
    run "convert-font.py" ["b.ttf"; "c.ttf"] disk = (inr tt, w') ∧
    read_file (fs w') "c.ttf" = Some out ∧
    read_sfnt out = read_sfnt (write None glyphs) ∧
    read_sfnt out = Some (None, glyphs) ∧
    (write None glyphs = write_sfnt None glyphs → out = write None glyphs).
Proof.
  split_and!; [reflexivity..|].
  apply (reconversion_idempotent (codec:=codec) "convert-font.py" "b.ttf" "c.ttf" disk
           (write None glyphs) glyphs); reflexivity.
Defined.

Lemma content_preserved_witness :
  read_file disk "a.woff2" = Some (write (Some woff2) glyphs) ∧
  read_sfnt (write (Some woff2) glyphs) = Some (Some woff2, glyphs) ∧
  writable disk "out.ttf" = true ∧
  ∃ w' out,
    run "convert-font.py" ["a.woff2"; "out.ttf"] disk = (inr tt, w') ∧
    read_file (fs w') "out.ttf" = Some out ∧
    read_sfnt out = Some (None, glyphs) ∧
    snd <$> read_sfnt out = snd <$> read_sfnt (write (Some woff2) glyphs).
Proof.
  split_and!; [reflexivity..|].
  apply (content_preserved (codec:=codec) "convert-font.py" "a.woff2" "out.ttf" disk
           (write (Some woff2) glyphs) glyphs); reflexivity.
Defined.

(** The claim C9 read on a run whose two paths are the same: the run
    succeeds and the source file, a WOFF2 container before, holds the
    flavor-less container after. *)
Lemma source_overwritten :
  fst (run "convert-font.py" ["a.woff2"; "a.woff2"] disk) = inr tt ∧
  read_file disk "a.woff2" = Some (write (Some woff2) glyphs) ∧
  read_file (fs (snd (run "convert-font.py" ["a.woff2"; "a.woff2"] disk)))
    "a.woff2" = Some (write None glyphs) ∧
  read_file (fs (snd (run "convert-font.py" ["a.woff2"; "a.woff2"] disk)))
    "a.woff2" ≠ read_file disk "a.woff2".
Proof. split_and!; [reflexivity..|discriminate]. Qed.

(** The same with two texts that name one file. *)
Example source_overwritten_through_alias :
  fst (run "convert-font.py" ["a.woff2"; "./a.woff2"] disk) = inr tt ∧
  read_file (fs (snd (run "convert-font.py" ["a.woff2"; "./a.woff2"] disk)))
    "a.woff2" = Some (write None glyphs).
Proof. split; reflexivity. Qed.

Lemma other_paths_untouched_witness :
  realpath disk <$> ["a.woff2"; "out.ttf"] !! 1 ≠ Some (realpath disk "./a.woff2") ∧
  read_file (fs (snd (run "convert-font.py" ["a.woff2"; "out.ttf"] disk)))
    "./a.woff2" = read_file disk "./a.woff2".
Proof.
  split; [discriminate|].
  apply (other_paths_untouched "convert-font.py" ["a.woff2"; "out.ttf"] disk).
  discriminate.
Defined.

(** A failed save: the destination lies in the read-only directory. *)
Example save_refused :
  run "convert-font.py" ["a.woff2"; "/ro/out.ttf"] disk
    = (inl (OSError "/ro/out.ttf"), boot disk).
Proof. reflexivity. Qed.

(** A failed load: the source is not a font. *)
Example load_refused :
  run "convert-font.py" ["notes.txt"; "out.ttf"] disk
    = (inl TTLibError, boot disk).
Proof. reflexivity. Qed.

(** ** Runs for the further properties *)

Lemma only_two_arguments_read_witness :
  ["a.woff2"; "out.ttf"; "extra"] !! 0 = ["a.woff2"; "out.ttf"] !! 0 ∧
  ["a.woff2"; "out.ttf"; "extra"] !! 1 = ["a.woff2"; "out.ttf"] !! 1 ∧
  run "convert-font.py" ["a.woff2"; "out.ttf"; "extra"] disk
    = run "./tools/convert-font.py" ["a.woff2"; "out.ttf"] disk.
Proof.
  split_and!; [reflexivity..|].
  by apply (only_two_arguments_read (codec:=codec)).
Defined.

Lemma malformed_source_witness :
  read_file disk "notes.txt" = Some [x68; x69] ∧
  read_sfnt [x68; x69] = None ∧
  run "convert-font.py" ["notes.txt"; "/ro/out.ttf"] disk
    = (inl TTLibError, boot disk) ∧
  exit_status (fst (run "convert-font.py" ["notes.txt"; "/ro/out.ttf"] disk)) = 1.
Proof.
  split_and!; [reflexivity..| |];
    by apply (malformed_source (codec:=codec) "convert-font.py" "notes.txt"
                "/ro/out.ttf" [] disk [x68; x69]).
Defined.

Lemma unwritable_destination_witness :
  read_file disk "a.woff2" = Some (write (Some woff2) glyphs) ∧
  read_sfnt (write (Some woff2) glyphs) = Some (Some woff2, glyphs) ∧
  writable disk "/ro/out.ttf" = false ∧
  run "convert-font.py" ["a.woff2"; "/ro/out.ttf"] disk
    = (inl (OSError "/ro/out.ttf"), boot disk) ∧
  exit_status (fst (run "convert-font.py" ["a.woff2"; "/ro/out.ttf"] disk)) = 1.
Proof.
  split_and!; [reflexivity..| |];
    by apply (unwritable_destination (codec:=codec) "convert-font.py" "a.woff2"
                "/ro/out.ttf" [] disk (write (Some woff2) glyphs)
                (Some woff2) glyphs).
Defined.

Lemma stdout_line_count_witness :
  run "convert-font.py" ["a.woff2"; two_line_path] disk
    = (inr tt, snd (run "convert-font.py" ["a.woff2"; two_line_path] disk)) ∧
  length (lines (stdout (snd (run "convert-font.py" ["a.woff2"; two_line_path]
                                disk))))
    = S (count_LF "a.woff2" + count_LF two_line_path).
Proof.
  split; [reflexivity|].
  by apply (stdout_line_count (codec:=codec) "convert-font.py" "a.woff2"
              two_line_path [] disk).
Defined.


Lemma overwrites_destination_witness :
  realpath disk "a.woff2" ≠ realpath disk "./b.ttf" ∧
  fst (run "convert-font.py" ["a.woff2"; "./b.ttf"] disk) = inr tt ∧
  fst (run "convert-font.py" ["a.woff2"; "./b.ttf"]
         (write_file disk "./b.ttf" [x68; x69])) = inr tt ∧
  fs (snd (run "convert-font.py" ["a.woff2"; "./b.ttf"]
             (write_file disk "./b.ttf" [x68; x69])))
    = fs (snd (run "convert-font.py" ["a.woff2"; "./b.ttf"] disk)).
Proof.
  split_and!; [discriminate|reflexivity| |];
    by apply (overwrites_destination (codec:=codec) "convert-font.py"
                "a.woff2" "./b.ttf" disk [x68; x69]).
Defined.
